(** * vtkLabeledDataMapper: the class declared in Rendering/vtkLabeledDataMapper.h

    The header declares the instance variables of the mapper, generates most
    of its setters and getters with the vtkSetGet macros, and gives the bodies
    of the convenience methods inline.  This development embeds that part of
    the class: the object is a record of its instance variables, a member
    function is a function from the object before the call to the object after
    it (and a result, for a getter).

    The member functions that the header only declares (SetInput, SetTransform,
    SetFieldDataArray, SetFieldDataName, the typed text-property accessors,
    AllocateLabels, BuildLabels and the Render methods) have their bodies in
    the implementation file, which is not part of the sources at hand; they are
    not given a body here.  The two typed text-property accessors, which the
    inline ones call, are taken as a parameter. *)

From Stdlib Require Import ZArith NArith List Bool Lia.
From Stdlib Require Import Strings.Byte.
Import ListNotations.
Open Scope Z_scope.

(** ** Constants *)

(** Label modes, lines 54-60. *)
Definition VTK_LABEL_IDS : Z := 0.
Definition VTK_LABEL_SCALARS : Z := 1.
Definition VTK_LABEL_VECTORS : Z := 2.
Definition VTK_LABEL_NORMALS : Z := 3.
Definition VTK_LABEL_TCOORDS : Z := 4.
Definition VTK_LABEL_TENSORS : Z := 5.
Definition VTK_LABEL_FIELD_DATA : Z := 6.

(** enum Coordinates, lines 162-166. *)
Definition WORLD : Z := 0.
Definition DISPLAY : Z := 1.

(** ** C data *)

(** An [int] is an integer of [Z]: the setters below compare and copy their
    argument and never compute with it, so no wrap-around arises. *)

(** An object pointer: an address, 0 for NULL. *)
Definition ptr : Type := N.
Definition NULL : ptr := 0%N.

(** A [char*] is NULL ([None]) or points at characters in memory ([Some p],
    the bytes from the pointer on); the string it denotes stops before the
    first NUL.  Reading past the modelled bytes reads a NUL. *)
Definition chars : Type := list byte.
Definition NUL : byte := x00.

(** The string a character pointer denotes. *)
Fixpoint c_str (p : chars) : chars :=
  match p with
  | [] => []
  | c :: r => if Byte.eqb c NUL then [] else c :: c_str r
  end.

Fixpoint strlen (p : chars) : nat :=
  match p with
  | [] => O
  | c :: r => if Byte.eqb c NUL then O else S (strlen r)
  end.

Definition uchar (c : byte) : Z := Z.of_N (Byte.to_N c).

(** [strcmp]: the difference of the first two characters that differ, as
    unsigned chars; 0 when both strings end together. *)
Fixpoint strcmp (s1 s2 : chars) : Z :=
  match s1, s2 with
  | [], [] => 0
  | [], c2 :: _ => 0 - uchar c2
  | c1 :: _, [] => uchar c1
  | c1 :: r1, c2 :: r2 =>
      if Byte.eqb c1 c2
      then (if Byte.eqb c1 NUL then 0 else strcmp r1 r2)
      else uchar c1 - uchar c2
  end.

(** [do { *cp1++ = *cp2++; } while (--n);] for a count [n] that is not 0:
    the [n] characters written through [cp1]. *)
Fixpoint copy_chars (n : nat) (cp2 : chars) : chars :=
  match n with
  | O => []
  | S k =>
      match cp2 with
      | [] => NUL :: copy_chars k []
      | c :: r => c :: copy_chars k r
      end
  end.

(** ** The object *)

(** The largest [unsigned long], the type of a time stamp (line 179), taken
    as 64 bits wide. *)
Definition ULONG_MAX : N := 18446744073709551615.

(** The instance variables of lines 185-210, under their names; [MTime], the
    modification time inherited from vtkObject; and [TimeStampTime], the
    toolkit's time-stamp counter, a static shared by every object, carried
    here with the object the calls are made on. *)
Record vtkLabeledDataMapper : Type := {
  Input : ptr;
  LabelFormat : option chars;
  LabelMode : Z;
  LabeledComponent : Z;
  FieldDataArray : Z;
  FieldDataName : option chars;
  CoordinateSystem : Z;
  BuildTime : N;
  NumberOfLabels : Z;
  NumberOfLabelsAllocated : Z;
  TextMappers : ptr;
  LabelPositions : ptr;
  Transform : ptr;
  Implementation : ptr;
  MTime : N;
  TimeStampTime : N
}.

(** A member of the object, as a macro receives it by name: how to read it
    and how to assign it. *)
Record ivar (T : Type) : Type := {
  read : vtkLabeledDataMapper -> T;
  write : T -> vtkLabeledDataMapper -> vtkLabeledDataMapper
}.
Arguments read {T} _ _.
Arguments write {T} _ _ _.

Definition assign_LabelFormat (v : option chars) (this : vtkLabeledDataMapper)
  : vtkLabeledDataMapper :=
  {| Input := Input this; LabelFormat := v; LabelMode := LabelMode this;
     LabeledComponent := LabeledComponent this;
     FieldDataArray := FieldDataArray this; FieldDataName := FieldDataName this;
     CoordinateSystem := CoordinateSystem this; BuildTime := BuildTime this;
     NumberOfLabels := NumberOfLabels this;
     NumberOfLabelsAllocated := NumberOfLabelsAllocated this;
     TextMappers := TextMappers this; LabelPositions := LabelPositions this;
     Transform := Transform this; Implementation := Implementation this;
     MTime := MTime this; TimeStampTime := TimeStampTime this |}.

Definition assign_LabelMode (v : Z) (this : vtkLabeledDataMapper)
  : vtkLabeledDataMapper :=
  {| Input := Input this; LabelFormat := LabelFormat this; LabelMode := v;
     LabeledComponent := LabeledComponent this;
     FieldDataArray := FieldDataArray this; FieldDataName := FieldDataName this;
     CoordinateSystem := CoordinateSystem this; BuildTime := BuildTime this;
     NumberOfLabels := NumberOfLabels this;
     NumberOfLabelsAllocated := NumberOfLabelsAllocated this;
     TextMappers := TextMappers this; LabelPositions := LabelPositions this;
     Transform := Transform this; Implementation := Implementation this;
     MTime := MTime this; TimeStampTime := TimeStampTime this |}.

Definition assign_LabeledComponent (v : Z) (this : vtkLabeledDataMapper)
  : vtkLabeledDataMapper :=
  {| Input := Input this; LabelFormat := LabelFormat this;
     LabelMode := LabelMode this; LabeledComponent := v;
     FieldDataArray := FieldDataArray this; FieldDataName := FieldDataName this;
     CoordinateSystem := CoordinateSystem this; BuildTime := BuildTime this;
     NumberOfLabels := NumberOfLabels this;
     NumberOfLabelsAllocated := NumberOfLabelsAllocated this;
     TextMappers := TextMappers this; LabelPositions := LabelPositions this;
     Transform := Transform this; Implementation := Implementation this;
     MTime := MTime this; TimeStampTime := TimeStampTime this |}.

Definition assign_CoordinateSystem (v : Z) (this : vtkLabeledDataMapper)
  : vtkLabeledDataMapper :=
  {| Input := Input this; LabelFormat := LabelFormat this;
     LabelMode := LabelMode this; LabeledComponent := LabeledComponent this;
     FieldDataArray := FieldDataArray this; FieldDataName := FieldDataName this;
     CoordinateSystem := v; BuildTime := BuildTime this;
     NumberOfLabels := NumberOfLabels this;
     NumberOfLabelsAllocated := NumberOfLabelsAllocated this;
     TextMappers := TextMappers this; LabelPositions := LabelPositions this;
     Transform := Transform this; Implementation := Implementation this;
     MTime := MTime this; TimeStampTime := TimeStampTime this |}.

Definition ivar_LabelFormat : ivar (option chars) :=
  {| read := LabelFormat; write := assign_LabelFormat |}.
Definition ivar_LabelMode : ivar Z :=
  {| read := LabelMode; write := assign_LabelMode |}.
Definition ivar_LabeledComponent : ivar Z :=
  {| read := LabeledComponent; write := assign_LabeledComponent |}.
Definition ivar_CoordinateSystem : ivar Z :=
  {| read := CoordinateSystem; write := assign_CoordinateSystem |}.

(** ** The vtkSetGet macros the header expands

    vtkSetGet.h is not among the sources.  Each macro below is given the body
    the toolkit's setter and getter idiom has; the debug output a setter may
    print is left out. *)

(** Modelled from the spec: vtkObject::Modified(), inherited and not among the
    sources.  [this->MTime = ++vtkTimeStampTime;] on the counter shared by all
    objects, an unsigned long: it wraps to 0 after [ULONG_MAX]. *)
Definition Modified (this : vtkLabeledDataMapper) : vtkLabeledDataMapper :=
  {| Input := Input this; LabelFormat := LabelFormat this;
     LabelMode := LabelMode this; LabeledComponent := LabeledComponent this;
     FieldDataArray := FieldDataArray this; FieldDataName := FieldDataName this;
     CoordinateSystem := CoordinateSystem this; BuildTime := BuildTime this;
     NumberOfLabels := NumberOfLabels this;
     NumberOfLabelsAllocated := NumberOfLabelsAllocated this;
     TextMappers := TextMappers this; LabelPositions := LabelPositions this;
     Transform := Transform this; Implementation := Implementation this;
     MTime := (N.succ (TimeStampTime this) mod N.succ ULONG_MAX)%N;
     TimeStampTime := (N.succ (TimeStampTime this) mod N.succ ULONG_MAX)%N |}.

(** Modelled from the spec: the body of vtkSetMacro(name,type), not among the
    sources.  [if (this->name != _arg) { this->name = _arg; this->Modified(); }] *)
Definition vtkSetMacro (name : ivar Z) (_arg : Z) (this : vtkLabeledDataMapper)
  : vtkLabeledDataMapper :=
  if negb (read name this =? _arg)
  then Modified (write name _arg this)
  else this.

(** Modelled from the spec: the body of vtkGetMacro(name,type),
    vtkGetStringMacro(name) and vtkGetObjectMacro(name,type), not among the
    sources.  [return this->name;] *)
Definition vtkGetMacro {T : Type} (name : vtkLabeledDataMapper -> T)
  (this : vtkLabeledDataMapper) : T :=
  name this.

(** Modelled from the spec: the body of vtkSetClampMacro(name,type,min,max),
    not among the sources.  The value stored is
    [(_arg<min?min:(_arg>max?max:_arg))]; it is assigned, and the object
    marked modified, when it differs from the member. *)
Definition vtkSetClampMacro (name : ivar Z) (min max : Z) (_arg : Z)
  (this : vtkLabeledDataMapper) : vtkLabeledDataMapper :=
  let v := if _arg <? min then min else if _arg >? max then max else _arg in
  if negb (read name this =? v)
  then Modified (write name v this)
  else this.

(** Modelled from the spec: the body of vtkSetStringMacro(name), not among the
    sources.  It returns at once when the member and the argument are both
    NULL or hold equal strings; otherwise it frees the member, stores a copy of
    the argument ([strlen(_arg) + 1] characters in a new array) or NULL, and
    marks the object modified.  The argument is the characters it points at:
    a pointer into the array the member itself owns, which the setter frees
    before it copies, is not represented. *)
Definition vtkSetStringMacro (name : ivar (option chars)) (_arg : option chars)
  (this : vtkLabeledDataMapper) : vtkLabeledDataMapper :=
  match read name this, _arg with
  | None, None => this
  | Some cur, Some a =>
      if strcmp cur a =? 0 then this
      else Modified (write name (Some (copy_chars (S (strlen a)) a)) this)
  | None, Some a =>
      Modified (write name (Some (copy_chars (S (strlen a)) a)) this)
  | Some _, None => Modified (write name None this)
  end.

(** ** Member functions the header defines *)

(** Lines 84-85. *)
Definition SetLabelFormat : option chars -> vtkLabeledDataMapper -> vtkLabeledDataMapper :=
  vtkSetStringMacro ivar_LabelFormat.
Definition GetLabelFormat : vtkLabeledDataMapper -> option chars :=
  vtkGetMacro LabelFormat.

(** Lines 93-94. *)
Definition SetLabeledComponent : Z -> vtkLabeledDataMapper -> vtkLabeledDataMapper :=
  vtkSetMacro ivar_LabeledComponent.
Definition GetLabeledComponent : vtkLabeledDataMapper -> Z :=
  vtkGetMacro LabeledComponent.

(** Lines 101 and 108: the getters of the two field-data selectors. *)
Definition GetFieldDataArray : vtkLabeledDataMapper -> Z :=
  vtkGetMacro FieldDataArray.
Definition GetFieldDataName : vtkLabeledDataMapper -> option chars :=
  vtkGetMacro FieldDataName.

(** Lines 123-132. *)
Definition SetLabelMode : Z -> vtkLabeledDataMapper -> vtkLabeledDataMapper :=
  vtkSetMacro ivar_LabelMode.
Definition GetLabelMode : vtkLabeledDataMapper -> Z :=
  vtkGetMacro LabelMode.
Definition SetLabelModeToLabelIds (this : vtkLabeledDataMapper) :=
  SetLabelMode VTK_LABEL_IDS this.
Definition SetLabelModeToLabelScalars (this : vtkLabeledDataMapper) :=
  SetLabelMode VTK_LABEL_SCALARS this.
Definition SetLabelModeToLabelVectors (this : vtkLabeledDataMapper) :=
  SetLabelMode VTK_LABEL_VECTORS this.
Definition SetLabelModeToLabelNormals (this : vtkLabeledDataMapper) :=
  SetLabelMode VTK_LABEL_NORMALS this.
Definition SetLabelModeToLabelTCoords (this : vtkLabeledDataMapper) :=
  SetLabelMode VTK_LABEL_TCOORDS this.
Definition SetLabelModeToLabelTensors (this : vtkLabeledDataMapper) :=
  SetLabelMode VTK_LABEL_TENSORS this.
Definition SetLabelModeToLabelFieldData (this : vtkLabeledDataMapper) :=
  SetLabelMode VTK_LABEL_FIELD_DATA this.

(** Line 157. *)
Definition GetTransform : vtkLabeledDataMapper -> ptr :=
  vtkGetMacro Transform.

(** Lines 172-175. *)
Definition GetCoordinateSystem : vtkLabeledDataMapper -> Z :=
  vtkGetMacro CoordinateSystem.
Definition SetCoordinateSystem : Z -> vtkLabeledDataMapper -> vtkLabeledDataMapper :=
  vtkSetClampMacro ivar_CoordinateSystem WORLD DISPLAY.
Definition CoordinateSystemWorld (this : vtkLabeledDataMapper) :=
  SetCoordinateSystem WORLD this.
Definition CoordinateSystemDisplay (this : vtkLabeledDataMapper) :=
  SetCoordinateSystem DISPLAY this.

(** ** The text-property accessors, lines 139-144

    The two accessors that take a type are virtual and only declared; the
    object's class supplies them.  The getter is not const, so it returns the
    object after the call beside its result. *)
Class TypedLabelTextProperty : Type := {
  SetLabelTextProperty_type :
    ptr -> Z -> vtkLabeledDataMapper -> vtkLabeledDataMapper;
  GetLabelTextProperty_type :
    Z -> vtkLabeledDataMapper -> ptr * vtkLabeledDataMapper
}.

(** [{ this->SetLabelTextProperty(p, 0); }] *)
Definition SetLabelTextProperty `{TypedLabelTextProperty} (p : ptr)
  (this : vtkLabeledDataMapper) : vtkLabeledDataMapper :=
  SetLabelTextProperty_type p 0 this.

(** [{ return this->GetLabelTextProperty(0); }] *)
Definition GetLabelTextProperty `{TypedLabelTextProperty}
  (this : vtkLabeledDataMapper) : ptr * vtkLabeledDataMapper :=
  GetLabelTextProperty_type 0 this.

(** ** Calls

    The state-changing member functions whose body the header gives, inline
    or through a macro, each with its arguments. *)
Inductive method : Type :=
| Call_SetLabelFormat (_arg : option chars)
| Call_SetLabeledComponent (_arg : Z)
| Call_SetLabelMode (_arg : Z)
| Call_SetLabelModeToLabelIds
| Call_SetLabelModeToLabelScalars
| Call_SetLabelModeToLabelVectors
| Call_SetLabelModeToLabelNormals
| Call_SetLabelModeToLabelTCoords
| Call_SetLabelModeToLabelTensors
| Call_SetLabelModeToLabelFieldData
| Call_SetCoordinateSystem (_arg : Z)
| Call_CoordinateSystemWorld
| Call_CoordinateSystemDisplay.

Definition call (m : method) (this : vtkLabeledDataMapper) : vtkLabeledDataMapper :=
  match m with
  | Call_SetLabelFormat a => SetLabelFormat a this
  | Call_SetLabeledComponent a => SetLabeledComponent a this
  | Call_SetLabelMode a => SetLabelMode a this
  | Call_SetLabelModeToLabelIds => SetLabelModeToLabelIds this
  | Call_SetLabelModeToLabelScalars => SetLabelModeToLabelScalars this
  | Call_SetLabelModeToLabelVectors => SetLabelModeToLabelVectors this
  | Call_SetLabelModeToLabelNormals => SetLabelModeToLabelNormals this
  | Call_SetLabelModeToLabelTCoords => SetLabelModeToLabelTCoords this
  | Call_SetLabelModeToLabelTensors => SetLabelModeToLabelTensors this
  | Call_SetLabelModeToLabelFieldData => SetLabelModeToLabelFieldData this
  | Call_SetCoordinateSystem a => SetCoordinateSystem a this
  | Call_CoordinateSystemWorld => CoordinateSystemWorld this
  | Call_CoordinateSystemDisplay => CoordinateSystemDisplay this
  end.

(** A sequence of calls, first call first. *)
Fixpoint run (calls : list method) (this : vtkLabeledDataMapper)
  : vtkLabeledDataMapper :=
  match calls with
  | [] => this
  | m :: rest => run rest (call m this)
  end.

Definition is_SetLabelFormat (m : method) : bool :=
  match m with
  | Call_SetLabelFormat _ => true
  | _ => false
  end.

(** CoordinateSystem is WORLD or DISPLAY. *)
Definition CoordinateSystem_valid (this : vtkLabeledDataMapper) : Prop :=
  CoordinateSystem this = WORLD \/ CoordinateSystem this = DISPLAY.

(** An object to run the methods on: point ids labeled, every component,
    world coordinates, and no format, input, field-data name or transform. *)
Definition mapper0 : vtkLabeledDataMapper :=
  {| Input := NULL; LabelFormat := None; LabelMode := VTK_LABEL_IDS;
     LabeledComponent := -1; FieldDataArray := 0; FieldDataName := None;
     CoordinateSystem := WORLD; BuildTime := 0%N; NumberOfLabels := 0;
     NumberOfLabelsAllocated := 0; TextMappers := NULL;
     LabelPositions := NULL; Transform := NULL; Implementation := NULL;
     MTime := 0%N; TimeStampTime := 0%N |}.

(** ** What a call sets

    The value a call leaves in LabelMode, for the calls that assign it: the
    argument of SetLabelMode, the constant of a SetLabelModeTo... method. *)
Definition mode_set_by (m : method) : option Z :=
  match m with
  | Call_SetLabelMode a => Some a
  | Call_SetLabelModeToLabelIds => Some VTK_LABEL_IDS
  | Call_SetLabelModeToLabelScalars => Some VTK_LABEL_SCALARS
  | Call_SetLabelModeToLabelVectors => Some VTK_LABEL_VECTORS
  | Call_SetLabelModeToLabelNormals => Some VTK_LABEL_NORMALS
  | Call_SetLabelModeToLabelTCoords => Some VTK_LABEL_TCOORDS
  | Call_SetLabelModeToLabelTensors => Some VTK_LABEL_TENSORS
  | Call_SetLabelModeToLabelFieldData => Some VTK_LABEL_FIELD_DATA
  | _ => None
  end.

(** The value a call leaves in CoordinateSystem, for the calls that assign
    it: the nearest of WORLD and DISPLAY to the argument of
    SetCoordinateSystem, the enumerator of the two methods without argument. *)
Definition coordinate_system_set_by (m : method) : option Z :=
  match m with
  | Call_SetCoordinateSystem a => Some (Z.max WORLD (Z.min a DISPLAY))
  | Call_CoordinateSystemWorld => Some WORLD
  | Call_CoordinateSystemDisplay => Some DISPLAY
  | _ => None
  end.

(** What a call of Modified() leaves: the object stamped with the object with the counter's
    next value. *)
Definition stamped (before after : vtkLabeledDataMapper) : Prop :=
  TimeStampTime after = (N.succ (TimeStampTime before) mod N.succ ULONG_MAX)%N
  /\ MTime after = TimeStampTime after.

(** * Properties *)

(** ** C strings *)

Lemma uchar_inj : forall c1 c2 : byte, uchar c1 = uchar c2 -> c1 = c2.
Proof.
  intros c1 c2 H. unfold uchar in H. apply N2Z.inj in H.
  assert (E : Byte.of_N (Byte.to_N c1) = Byte.of_N (Byte.to_N c2))
    by (rewrite H; reflexivity).
  rewrite !Byte.of_to_N in E. congruence.
Qed.

Lemma uchar_NUL : forall c : byte, uchar c = 0 -> c = NUL.
Proof. intros c H. apply uchar_inj. exact H. Qed.

Lemma eqb_NUL_false : forall c : byte, c <> NUL -> Byte.eqb c NUL = false.
Proof.
  intros c H. destruct (Byte.eqb c NUL) eqn:E; [ | reflexivity ].
  apply Byte.byte_dec_bl in E. contradiction.
Qed.

Lemma c_str_app_NUL : forall (s junk : chars),
  ~ In NUL s -> c_str (s ++ NUL :: junk) = s.
Proof.
  induction s as [ | c s IH ]; intros junk Hs.
  - reflexivity.
  - simpl. rewrite eqb_NUL_false.
    + f_equal. apply IH. intro Hin. apply Hs. right. exact Hin.
    + intro Hc. apply Hs. left. exact Hc.
Qed.

Lemma strlen_c_str : forall p : chars, strlen p = length (c_str p).
Proof.
  induction p as [ | c r IH ]; simpl; [ reflexivity | ].
  destruct (Byte.eqb c NUL); simpl; congruence.
Qed.

Lemma copy_chars_c_str : forall (s junk : chars),
  copy_chars (S (length s)) (s ++ NUL :: junk) = s ++ [NUL].
Proof.
  induction s as [ | c s IH ]; intro junk.
  - reflexivity.
  - change (c :: copy_chars (S (length s)) (s ++ NUL :: junk) = c :: s ++ [NUL]).
    f_equal. apply IH.
Qed.

(** [strcmp] answers 0 exactly on pointers that denote the same string. *)
Lemma strcmp_0_iff : forall s1 s2 : chars,
  strcmp s1 s2 = 0 <-> c_str s1 = c_str s2.
Proof.
  induction s1 as [ | c1 r1 IH ]; intros [ | c2 r2 ]; simpl.
  - tauto.
  - destruct (Byte.eqb c2 NUL) eqn:E2.
    + apply Byte.byte_dec_bl in E2. subst c2. split; reflexivity.
    + split; intro H; [ | discriminate ].
      assert (c2 = NUL) by (apply uchar_NUL; lia). subst c2. discriminate.
  - destruct (Byte.eqb c1 NUL) eqn:E1.
    + apply Byte.byte_dec_bl in E1. subst c1. split; reflexivity.
    + split; intro H; [ | discriminate ].
      apply uchar_NUL in H. subst c1. discriminate.
  - destruct (Byte.eqb c1 c2) eqn:E.
    + apply Byte.byte_dec_bl in E. subst c2.
      destruct (Byte.eqb c1 NUL); [ tauto | ].
      rewrite IH. split; intro H; [ f_equal; exact H | ].
      injection H as H. exact H.
    + apply Byte.eqb_false in E.
      split; intro H.
      * exfalso. apply E. apply uchar_inj. lia.
      * exfalso. apply E.
        destruct (Byte.eqb c1 NUL) eqn:E1, (Byte.eqb c2 NUL) eqn:E2;
          try discriminate.
        -- apply Byte.byte_dec_bl in E1, E2. congruence.
        -- congruence.
Qed.

(** The copy the string setter stores denotes the argument's string. *)
Lemma c_str_copy_chars : forall p : chars,
  c_str (copy_chars (S (strlen p)) p) = c_str p.
Proof.
  induction p as [ | c r IH ].
  - reflexivity.
  - simpl strlen. simpl c_str at 2.
    destruct (Byte.eqb c NUL) eqn:E.
    + simpl. rewrite E. reflexivity.
    + change (c_str (c :: copy_chars (S (strlen r)) r) = c :: c_str r).
      simpl c_str at 1. rewrite E. f_equal. exact IH.
Qed.

(** ** Setters and the members they leave alone *)

Lemma vtkSetMacro_read : forall (T : Type) (get : vtkLabeledDataMapper -> T)
    (name : ivar Z) (x : Z) (this : vtkLabeledDataMapper),
  (forall v o, get (Modified (write name v o)) = get o) ->
  get (vtkSetMacro name x this) = get this.
Proof.
  intros T get name x this H. unfold vtkSetMacro.
  destruct (negb (read name this =? x)); [ apply H | reflexivity ].
Qed.

Lemma vtkSetClampMacro_read : forall (T : Type) (get : vtkLabeledDataMapper -> T)
    (name : ivar Z) (lo hi x : Z) (this : vtkLabeledDataMapper),
  (forall v o, get (Modified (write name v o)) = get o) ->
  get (vtkSetClampMacro name lo hi x this) = get this.
Proof.
  intros T get name lo hi x this H. unfold vtkSetClampMacro. cbv zeta.
  match goal with |- context [negb ?b] => destruct (negb b) end;
    [ apply H | reflexivity ].
Qed.

Lemma vtkSetStringMacro_read : forall (T : Type) (get : vtkLabeledDataMapper -> T)
    (name : ivar (option chars)) (a : option chars) (this : vtkLabeledDataMapper),
  (forall v o, get (Modified (write name v o)) = get o) ->
  get (vtkSetStringMacro name a this) = get this.
Proof.
  intros T get name a this H. unfold vtkSetStringMacro.
  destruct (read name this) as [ cur | ], a as [ p | ];
    try apply H; try reflexivity.
  destruct (strcmp cur p =? 0); [ reflexivity | apply H ].
Qed.

(** A setter generated for one member leaves member [get] as it was. *)
Ltac setter_keeps get :=
  unfold SetLabelModeToLabelIds, SetLabelModeToLabelScalars,
    SetLabelModeToLabelVectors, SetLabelModeToLabelNormals,
    SetLabelModeToLabelTCoords, SetLabelModeToLabelTensors,
    SetLabelModeToLabelFieldData, CoordinateSystemWorld,
    CoordinateSystemDisplay;
  unfold SetLabelFormat, SetLabeledComponent, SetLabelMode, SetCoordinateSystem;
  first [ apply (vtkSetMacro_read _ get)
        | apply (vtkSetClampMacro_read _ get)
        | apply (vtkSetStringMacro_read _ get) ];
  reflexivity.

Lemma SetLabelMode_get : forall (m : Z) (this : vtkLabeledDataMapper),
  GetLabelMode (SetLabelMode m this) = m.
Proof.
  intros m this. unfold GetLabelMode, SetLabelMode, vtkGetMacro, vtkSetMacro.
  simpl. destruct (Z.eqb_spec (LabelMode this) m) as [ E | E ]; simpl.
  - exact E.
  - reflexivity.
Qed.

(** A setter called with the value the member already holds changes nothing,
    the modification time included. *)
Lemma SetLabelMode_same : forall this : vtkLabeledDataMapper,
  SetLabelMode (LabelMode this) this = this.
Proof.
  intro this. unfold SetLabelMode, vtkSetMacro. simpl.
  rewrite Z.eqb_refl. reflexivity.
Qed.

Lemma SetCoordinateSystem_get : forall (x : Z) (this : vtkLabeledDataMapper),
  GetCoordinateSystem (SetCoordinateSystem x this)
  = (if x <? WORLD then WORLD else if x >? DISPLAY then DISPLAY else x).
Proof.
  intros x this.
  unfold GetCoordinateSystem, SetCoordinateSystem, vtkGetMacro, vtkSetClampMacro.
  simpl.
  destruct (Z.eqb_spec (CoordinateSystem this)
              (if x <? WORLD then WORLD else if x >? DISPLAY then DISPLAY else x))
    as [ E | E ]; simpl.
  - exact E.
  - reflexivity.
Qed.

Lemma SetCoordinateSystem_valid : forall (x : Z) (this : vtkLabeledDataMapper),
  CoordinateSystem_valid (SetCoordinateSystem x this).
Proof.
  intros x this. unfold CoordinateSystem_valid.
  change (CoordinateSystem (SetCoordinateSystem x this))
    with (GetCoordinateSystem (SetCoordinateSystem x this)).
  rewrite SetCoordinateSystem_get. unfold WORLD, DISPLAY.
  destruct (Z.ltb_spec x 0); [ left; reflexivity | ].
  destruct (Z.gtb_spec x 1); [ right; reflexivity | lia ].
Qed.

Lemma call_CoordinateSystem : forall (m : method) (this : vtkLabeledDataMapper),
  CoordinateSystem_valid this -> CoordinateSystem_valid (call m this).
Proof.
  intros m this H.
  destruct m as [ a | a | a | | | | | | | | a | | ]; simpl;
    try apply SetCoordinateSystem_valid;
    unfold CoordinateSystem_valid;
    match goal with
    | |- CoordinateSystem ?o = _ \/ _ =>
        replace (CoordinateSystem o) with (CoordinateSystem this);
        [ exact H | symmetry; setter_keeps CoordinateSystem ]
    end.
Qed.

Lemma run_CoordinateSystem : forall (calls : list method) (this : vtkLabeledDataMapper),
  CoordinateSystem_valid this -> CoordinateSystem_valid (run calls this).
Proof.
  induction calls as [ | m rest IH ]; intros this H; simpl.
  - exact H.
  - apply IH. apply call_CoordinateSystem. exact H.
Qed.

Lemma call_LabelFormat : forall (m : method) (this : vtkLabeledDataMapper),
  is_SetLabelFormat m = false ->
  GetLabelFormat (call m this) = GetLabelFormat this.
Proof.
  intros m this H. unfold GetLabelFormat, vtkGetMacro.
  destruct m as [ a | a | a | | | | | | | | a | | ]; simpl;
    try discriminate H; setter_keeps LabelFormat.
Qed.

Lemma run_LabelFormat : forall (calls : list method) (this : vtkLabeledDataMapper),
  Forall (fun m => is_SetLabelFormat m = false) calls ->
  GetLabelFormat (run calls this) = GetLabelFormat this.
Proof.
  induction calls as [ | m rest IH ]; intros this H; simpl.
  - reflexivity.
  - inversion H as [ | m' rest' Hm Hrest ]; subst.
    rewrite IH by exact Hrest. apply call_LabelFormat. exact Hm.
Qed.

Lemma SetLabelFormat_get : forall (p : chars) (this : vtkLabeledDataMapper),
  exists buf : chars,
    GetLabelFormat (SetLabelFormat (Some p) this) = Some buf
    /\ c_str buf = c_str p.
Proof.
  intros p this. unfold GetLabelFormat, SetLabelFormat, vtkGetMacro,
    vtkSetStringMacro. simpl.
  destruct (LabelFormat this) as [ cur | ] eqn:Ecur.
  - destruct (Z.eqb_spec (strcmp cur p) 0) as [ E | E ].
    + exists cur. split; [ exact Ecur | ]. apply strcmp_0_iff. exact E.
    + eexists. split; [ reflexivity | ]. apply c_str_copy_chars.
  - eexists. split; [ reflexivity | ]. apply c_str_copy_chars.
Qed.

(** ** Label modes *)

Example SetLabelModeToLabelTCoords_mapper0 :
  GetLabelMode (SetLabelModeToLabelTCoords mapper0) = 4
  /\ MTime (SetLabelModeToLabelTCoords mapper0) = 1%N
  /\ MTime (SetLabelModeToLabelIds mapper0) = 0%N.
Proof. repeat split. Qed.

(** [SetLabelMode] stores any int: a mode that is none of the seven constants
    is kept as it is. *)
Example SetLabelMode_unchecked :
  GetLabelMode (SetLabelMode 42 mapper0) = 42
  /\ GetLabelMode (SetLabelMode (-1) mapper0) = -1.
Proof. split; reflexivity. Qed.

(** ** The label format *)

Example SetLabelFormat_percent_d :
  GetLabelFormat (SetLabelFormat (Some [x25; x64; x00; x41]) mapper0)
  = Some [x25; x64; x00].
Proof. reflexivity. Qed.

(** X7: the format is stored as given.  For every string [s] (characters with
    no NUL among them, found in memory before a NUL), SetLabelFormat on a
    pointer to it leaves a format that GetLabelFormat returns non-null, that
    denotes [s] and that strcmp finds equal to the argument; and no sequence of
    calls of the other setters the header defines (SetLabeledComponent,
    SetLabelMode, the seven SetLabelModeTo... methods, SetCoordinateSystem,
    CoordinateSystemWorld, CoordinateSystemDisplay) changes what
    GetLabelFormat returns. *)
Theorem LabelFormat_round_trip :
  forall (this : vtkLabeledDataMapper) (s junk : chars) (calls : list method),
    ~ In NUL s ->
    (exists buf : chars,
        GetLabelFormat (SetLabelFormat (Some (s ++ NUL :: junk)) this) = Some buf
        /\ c_str buf = s
        /\ strcmp buf (s ++ NUL :: junk) = 0)
    /\ (Forall (fun m => is_SetLabelFormat m = false) calls ->
        GetLabelFormat (run calls this) = GetLabelFormat this).
Proof.
  intros this s junk calls Hs. split.
  - destruct (SetLabelFormat_get (s ++ NUL :: junk) this) as [ buf [ Hget Hstr ] ].
    exists buf. split; [ exact Hget | ]. split.
    + rewrite Hstr. apply c_str_app_NUL. exact Hs.
    + apply strcmp_0_iff. exact Hstr.
  - apply run_LabelFormat.
Qed.

Lemma LabelFormat_round_trip_witness :
  (exists buf : chars,
      GetLabelFormat
        (SetLabelFormat (Some ([x25; x67] ++ NUL :: [x41]))
           (assign_LabelFormat (Some [x25; x64; x00]) mapper0))
      = Some buf
      /\ c_str buf = [x25; x67]
      /\ strcmp buf ([x25; x67] ++ NUL :: [x41]) = 0)
  /\ GetLabelFormat
       (run [Call_SetLabelModeToLabelScalars; Call_SetCoordinateSystem 5;
             Call_SetLabeledComponent 2]
          (assign_LabelFormat (Some [x25; x64; x00]) mapper0))
     = Some [x25; x64; x00].
Proof.
  assert (Hs : ~ In NUL [x25; x67]).
  { simpl. intros [ H | [ H | [] ] ]; discriminate H. }
  destruct (LabelFormat_round_trip
              (assign_LabelFormat (Some [x25; x64; x00]) mapper0)
              [x25; x67] [x41]
              [Call_SetLabelModeToLabelScalars; Call_SetCoordinateSystem 5;
               Call_SetLabeledComponent 2] Hs) as [ Hset Hframe ].
  split; [ exact Hset | ].
  apply Hframe. repeat constructor.
Defined.

(** ** The coordinate system *)

Example SetCoordinateSystem_mapper0 :
  GetCoordinateSystem (SetCoordinateSystem 7 mapper0) = 1
  /\ GetCoordinateSystem (SetCoordinateSystem (-3) mapper0) = 0
  /\ GetCoordinateSystem (SetCoordinateSystem 1 mapper0) = 1
  /\ GetCoordinateSystem (SetCoordinateSystem 0 (SetCoordinateSystem 1 mapper0)) = 0.
Proof. repeat split. Qed.

(** ** The text property *)

(** C9: whatever the class supplies as typed accessors, SetLabelTextProperty(p)
    leaves the object that SetLabelTextProperty(p, 0) leaves, and
    GetLabelTextProperty() returns what GetLabelTextProperty(0) returns, from
    the same object and leaving the same object. *)
Theorem LabelTextProperty_default_type :
  forall (impl : TypedLabelTextProperty) (p : ptr) (this : vtkLabeledDataMapper),
    SetLabelTextProperty p this = SetLabelTextProperty_type p 0 this
    /\ GetLabelTextProperty this = GetLabelTextProperty_type 0 this.
Proof.
  intros impl p this. unfold SetLabelTextProperty, GetLabelTextProperty.
  repeat split.
Qed.

(** ** Sequences of calls *)

Lemma run_app : forall (a b : list method) (this : vtkLabeledDataMapper),
  run (a ++ b) this = run b (run a this).
Proof.
  induction a as [ | m a IH ]; intros b this; simpl.
  - reflexivity.
  - apply IH.
Qed.

Lemma call_LabelMode_kept : forall (m : method) (this : vtkLabeledDataMapper),
  mode_set_by m = None -> GetLabelMode (call m this) = GetLabelMode this.
Proof.
  intros m this H. unfold GetLabelMode, vtkGetMacro.
  destruct m as [ a | a | a | | | | | | | | a | | ]; simpl;
    try discriminate H; setter_keeps LabelMode.
Qed.

Lemma call_LabelMode_set : forall (m : method) (v : Z) (this : vtkLabeledDataMapper),
  mode_set_by m = Some v -> GetLabelMode (call m this) = v.
Proof.
  intros m v this H.
  destruct m as [ a | a | a | | | | | | | | a | | ]; simpl in H |- *;
    try discriminate H; injection H as H; subst v;
    unfold SetLabelModeToLabelIds, SetLabelModeToLabelScalars,
      SetLabelModeToLabelVectors, SetLabelModeToLabelNormals,
      SetLabelModeToLabelTCoords, SetLabelModeToLabelTensors,
      SetLabelModeToLabelFieldData;
    apply SetLabelMode_get.
Qed.

Lemma run_LabelMode_kept : forall (calls : list method) (this : vtkLabeledDataMapper),
  Forall (fun m => mode_set_by m = None) calls ->
  GetLabelMode (run calls this) = GetLabelMode this.
Proof.
  induction calls as [ | m rest IH ]; intros this H; simpl.
  - reflexivity.
  - inversion H as [ | m' rest' Hm Hrest ]; subst.
    rewrite IH by exact Hrest. apply call_LabelMode_kept. exact Hm.
Qed.

(** X1: the last call that assigns LabelMode decides what GetLabelMode returns:
    whatever the object was and whatever was called before, after a call that
    sets mode [v], followed by calls of the other setters only, GetLabelMode
    returns [v]. *)
Theorem last_mode_call_decides :
  forall (this : vtkLabeledDataMapper) (before after : list method)
         (m : method) (v : Z),
    mode_set_by m = Some v ->
    Forall (fun m' => mode_set_by m' = None) after ->
    GetLabelMode (run (before ++ m :: after) this) = v.
Proof.
  intros this before after m v Hm Hafter.
  rewrite run_app. simpl.
  rewrite run_LabelMode_kept by exact Hafter.
  apply call_LabelMode_set. exact Hm.
Qed.

Lemma last_mode_call_decides_witness :
  GetLabelMode
    (run ([Call_SetLabelMode 42; Call_SetLabelModeToLabelIds]
          ++ Call_SetLabelModeToLabelTensors
             :: [Call_SetCoordinateSystem 3; Call_SetLabelFormat None;
                 Call_SetLabeledComponent 1]) mapper0)
  = VTK_LABEL_TENSORS.
Proof.
  apply (last_mode_call_decides mapper0
           [Call_SetLabelMode 42; Call_SetLabelModeToLabelIds]
           [Call_SetCoordinateSystem 3; Call_SetLabelFormat None;
            Call_SetLabeledComponent 1]
           Call_SetLabelModeToLabelTensors VTK_LABEL_TENSORS).
  - reflexivity.
  - repeat constructor.
Defined.

Lemma clamp_max_min : forall x : Z,
  (if x <? WORLD then WORLD else if x >? DISPLAY then DISPLAY else x)
  = Z.max WORLD (Z.min x DISPLAY).
Proof.
  intro x. unfold WORLD, DISPLAY.
  destruct (Z.ltb_spec x 0); [ lia | ].
  destruct (Z.gtb_spec x 1); lia.
Qed.

Lemma call_CoordinateSystem_kept : forall (m : method) (this : vtkLabeledDataMapper),
  coordinate_system_set_by m = None ->
  GetCoordinateSystem (call m this) = GetCoordinateSystem this.
Proof.
  intros m this H. unfold GetCoordinateSystem, vtkGetMacro.
  destruct m as [ a | a | a | | | | | | | | a | | ]; simpl;
    try discriminate H; setter_keeps CoordinateSystem.
Qed.

Lemma call_CoordinateSystem_set : forall (m : method) (v : Z) (this : vtkLabeledDataMapper),
  coordinate_system_set_by m = Some v -> GetCoordinateSystem (call m this) = v.
Proof.
  intros m v this H.
  destruct m as [ a | a | a | | | | | | | | a | | ]; simpl in H |- *;
    try discriminate H; injection H as H; subst v;
    unfold CoordinateSystemWorld, CoordinateSystemDisplay;
    rewrite SetCoordinateSystem_get.
  - apply clamp_max_min.
  - reflexivity.
  - reflexivity.
Qed.

Lemma run_CoordinateSystem_kept : forall (calls : list method) (this : vtkLabeledDataMapper),
  Forall (fun m => coordinate_system_set_by m = None) calls ->
  GetCoordinateSystem (run calls this) = GetCoordinateSystem this.
Proof.
  induction calls as [ | m rest IH ]; intros this H; simpl.
  - reflexivity.
  - inversion H as [ | m' rest' Hm Hrest ]; subst.
    rewrite IH by exact Hrest. apply call_CoordinateSystem_kept. exact Hm.
Qed.

(** X2: the last call that assigns CoordinateSystem decides what
    GetCoordinateSystem returns: after SetCoordinateSystem(x),
    CoordinateSystemWorld() or CoordinateSystemDisplay(), followed by calls of
    the other setters only, it returns max(WORLD, min(x, DISPLAY)), WORLD or
    DISPLAY, whatever the object was before, a CoordinateSystem out of range
    included. *)
Theorem last_coordinate_system_call_decides :
  forall (this : vtkLabeledDataMapper) (before after : list method)
         (m : method) (v : Z),
    coordinate_system_set_by m = Some v ->
    Forall (fun m' => coordinate_system_set_by m' = None) after ->
    GetCoordinateSystem (run (before ++ m :: after) this) = v
    /\ WORLD <= v <= DISPLAY.
Proof.
  intros this before after m v Hm Hafter. split.
  - rewrite run_app. simpl.
    rewrite run_CoordinateSystem_kept by exact Hafter.
    apply call_CoordinateSystem_set. exact Hm.
  - destruct m; simpl in Hm; try discriminate Hm; injection Hm as Hm; subst v;
      unfold WORLD, DISPLAY; lia.
Qed.

Lemma last_coordinate_system_call_decides_witness :
  GetCoordinateSystem
    (run ([Call_CoordinateSystemWorld; Call_SetLabelModeToLabelNormals]
          ++ Call_SetCoordinateSystem 12
             :: [Call_SetLabelMode 2; Call_SetLabelFormat (Some [x25; x64])])
       (assign_CoordinateSystem 7 mapper0))
  = 1
  /\ WORLD <= 1 <= DISPLAY.
Proof.
  apply (last_coordinate_system_call_decides (assign_CoordinateSystem 7 mapper0)
           [Call_CoordinateSystemWorld; Call_SetLabelModeToLabelNormals]
           [Call_SetLabelMode 2; Call_SetLabelFormat (Some [x25; x64])]
           (Call_SetCoordinateSystem 12) 1).
  - reflexivity.
  - repeat constructor.
Defined.

(** X3: SetCoordinateSystem has two behaviours only, those of the two methods
    without argument: for every int [x], SetCoordinateSystem(x) leaves the
    object CoordinateSystemWorld() leaves when x <= WORLD, and the object
    CoordinateSystemDisplay() leaves otherwise, the modification time
    included. *)
Theorem SetCoordinateSystem_World_or_Display :
  forall (x : Z) (this : vtkLabeledDataMapper),
    SetCoordinateSystem x this
    = if x <=? WORLD then CoordinateSystemWorld this
      else CoordinateSystemDisplay this.
Proof.
  intros x this.
  unfold CoordinateSystemWorld, CoordinateSystemDisplay, SetCoordinateSystem,
    vtkSetClampMacro. cbv zeta.
  rewrite !clamp_max_min. unfold WORLD, DISPLAY.
  destruct (Z.leb_spec x 0) as [ Hx | Hx ].
  - replace (Z.max 0 (Z.min x 1)) with (Z.max 0 (Z.min 0 1)) by lia.
    reflexivity.
  - replace (Z.max 0 (Z.min x 1)) with (Z.max 0 (Z.min 1 1)) by lia.
    reflexivity.
Qed.

(** ** Repeated calls and the modification time *)

Lemma vtkSetMacro_twice : forall (name : ivar Z) (x : Z) (this : vtkLabeledDataMapper),
  (forall v o, read name (Modified (write name v o)) = v) ->
  vtkSetMacro name x (vtkSetMacro name x this) = vtkSetMacro name x this.
Proof.
  intros name x this Hlens. unfold vtkSetMacro.
  destruct (Z.eqb_spec (read name this) x) as [ E | E ]; simpl.
  - rewrite E, Z.eqb_refl. reflexivity.
  - rewrite Hlens, Z.eqb_refl. reflexivity.
Qed.

Lemma vtkSetClampMacro_twice :
  forall (name : ivar Z) (lo hi x : Z) (this : vtkLabeledDataMapper),
    (forall v o, read name (Modified (write name v o)) = v) ->
    vtkSetClampMacro name lo hi x (vtkSetClampMacro name lo hi x this)
    = vtkSetClampMacro name lo hi x this.
Proof.
  intros name lo hi x this Hlens. unfold vtkSetClampMacro. cbv zeta.
  set (v := if x <? lo then lo else if x >? hi then hi else x).
  destruct (Z.eqb_spec (read name this) v) as [ E | E ]; simpl.
  - rewrite E, Z.eqb_refl. reflexivity.
  - rewrite Hlens, Z.eqb_refl. reflexivity.
Qed.

Lemma strcmp_copy_chars : forall p : chars,
  strcmp (copy_chars (S (strlen p)) p) p = 0.
Proof. intro p. apply strcmp_0_iff. apply c_str_copy_chars. Qed.

Lemma vtkSetStringMacro_twice :
  forall (name : ivar (option chars)) (a : option chars) (this : vtkLabeledDataMapper),
    (forall v o, read name (Modified (write name v o)) = v) ->
    vtkSetStringMacro name a (vtkSetStringMacro name a this)
    = vtkSetStringMacro name a this.
Proof.
  intros name a this Hlens. unfold vtkSetStringMacro.
  destruct (read name this) as [ cur | ] eqn:Ecur, a as [ p | ].
  - destruct (Z.eqb_spec (strcmp cur p) 0) as [ E | E ].
    + rewrite Ecur. rewrite E. reflexivity.
    + rewrite Hlens. rewrite strcmp_copy_chars. reflexivity.
  - rewrite Hlens. reflexivity.
  - rewrite Hlens. rewrite strcmp_copy_chars. reflexivity.
  - rewrite Ecur. reflexivity.
Qed.

(** X4: every setter the header defines is idempotent: a call repeated at once
    with the same argument leaves the object the first call left, and does not
    mark it modified again.  For SetLabelFormat the second call finds the
    stored copy equal to its argument and returns before it frees or copies
    anything. *)
Theorem call_twice : forall (m : method) (this : vtkLabeledDataMapper),
  call m (call m this) = call m this.
Proof.
  intros m this.
  destruct m as [ a | a | a | | | | | | | | a | | ]; simpl;
    unfold SetLabelModeToLabelIds, SetLabelModeToLabelScalars,
      SetLabelModeToLabelVectors, SetLabelModeToLabelNormals,
      SetLabelModeToLabelTCoords, SetLabelModeToLabelTensors,
      SetLabelModeToLabelFieldData, CoordinateSystemWorld,
      CoordinateSystemDisplay;
    unfold SetLabelFormat, SetLabeledComponent, SetLabelMode,
      SetCoordinateSystem;
    first [ apply vtkSetMacro_twice
          | apply vtkSetClampMacro_twice
          | apply vtkSetStringMacro_twice ];
    reflexivity.
Qed.

Lemma vtkSetMacro_stamped : forall (name : ivar Z) (x : Z) (this : vtkLabeledDataMapper),
  (forall v o, TimeStampTime (write name v o) = TimeStampTime o) ->
  vtkSetMacro name x this = this \/ stamped this (vtkSetMacro name x this).
Proof.
  intros name x this H. unfold vtkSetMacro.
  destruct (negb (read name this =? x)); [ right | left; reflexivity ].
  unfold stamped. simpl. rewrite H. split; reflexivity.
Qed.

Lemma vtkSetClampMacro_stamped :
  forall (name : ivar Z) (lo hi x : Z) (this : vtkLabeledDataMapper),
    (forall v o, TimeStampTime (write name v o) = TimeStampTime o) ->
    vtkSetClampMacro name lo hi x this = this
    \/ stamped this (vtkSetClampMacro name lo hi x this).
Proof.
  intros name lo hi x this H. unfold vtkSetClampMacro. cbv zeta.
  match goal with |- context [negb ?b] => destruct (negb b) end;
    [ right | left; reflexivity ].
  unfold stamped. simpl. rewrite H. split; reflexivity.
Qed.

Lemma vtkSetStringMacro_stamped :
  forall (name : ivar (option chars)) (a : option chars) (this : vtkLabeledDataMapper),
    (forall v o, TimeStampTime (write name v o) = TimeStampTime o) ->
    vtkSetStringMacro name a this = this
    \/ stamped this (vtkSetStringMacro name a this).
Proof.
  intros name a this H. unfold vtkSetStringMacro.
  destruct (read name this) as [ cur | ], a as [ p | ];
    try (left; reflexivity);
    try (right; unfold stamped; simpl; rewrite H; split; reflexivity).
  destruct (strcmp cur p =? 0);
    [ left; reflexivity
    | right; unfold stamped; simpl; rewrite H; split; reflexivity ].
Qed.

(** A call leaves the object as it was, counter included, or stamps it. *)
Lemma call_stamped : forall (m : method) (this : vtkLabeledDataMapper),
  call m this = this \/ stamped this (call m this).
Proof.
  intros m this.
  destruct m as [ a | a | a | | | | | | | | a | | ]; simpl;
    unfold SetLabelModeToLabelIds, SetLabelModeToLabelScalars,
      SetLabelModeToLabelVectors, SetLabelModeToLabelNormals,
      SetLabelModeToLabelTCoords, SetLabelModeToLabelTensors,
      SetLabelModeToLabelFieldData, CoordinateSystemWorld,
      CoordinateSystemDisplay;
    unfold SetLabelFormat, SetLabeledComponent, SetLabelMode,
      SetCoordinateSystem;
    first [ apply vtkSetMacro_stamped
          | apply vtkSetClampMacro_stamped
          | apply vtkSetStringMacro_stamped ];
    reflexivity.
Qed.

Lemma stamped_no_wrap : forall before after : vtkLabeledDataMapper,
  stamped before after ->
  (TimeStampTime before < ULONG_MAX)%N ->
  TimeStampTime after = N.succ (TimeStampTime before)
  /\ MTime after = N.succ (TimeStampTime before).
Proof.
  intros before after [ Hc Ht ] Hlt.
  rewrite N.mod_small in Hc by lia.
  rewrite Ht, Hc. split; reflexivity.
Qed.

(** X5: no change goes unstamped while the counter does not wrap.  Take an
    object whose modification time is not ahead of the toolkit's time-stamp
    counter, and a sequence of calls of the setters the header defines that is
    short enough for the counter to stay within an unsigned long.  Then the
    modification time does not go back, and when it is what it was before the
    sequence, the whole object is what it was: every call that changed a
    member has advanced the time.  ([MTime] is the member Modified() assigns;
    GetMTime(), which the class overrides and only declares, is not
    modelled.) *)
Theorem run_MTime : forall (calls : list method) (this : vtkLabeledDataMapper),
  (MTime this <= TimeStampTime this)%N ->
  (TimeStampTime this + N.of_nat (length calls) <= ULONG_MAX)%N ->
  (MTime this <= MTime (run calls this))%N
  /\ (MTime (run calls this) = MTime this -> run calls this = this).
Proof.
  induction calls as [ | m rest IH ]; intros this Hle Hroom.
  - simpl. split; [ apply N.le_refl | reflexivity ].
  - simpl run. rewrite length_cons, Nat2N.inj_succ in Hroom.
    destruct (call_stamped m this) as [ E | E ].
    + rewrite E. apply IH; [ exact Hle | lia ].
    + apply stamped_no_wrap in E; [ | lia ]. destruct E as [ Ec Et ].
      destruct (IH (call m this)) as [ Hmono _ ]; [ lia | lia | ].
      split; [ lia | ]. intro Heq. lia.
Qed.

Lemma run_MTime_witness :
  (MTime mapper0
   <= MTime (run [Call_SetLabelModeToLabelIds; Call_SetLabelModeToLabelScalars;
                  Call_SetCoordinateSystem 5] mapper0))%N
  /\ (MTime (run [Call_SetLabelModeToLabelIds; Call_CoordinateSystemWorld;
                  Call_SetLabelFormat None] mapper0) = MTime mapper0 ->
      run [Call_SetLabelModeToLabelIds; Call_CoordinateSystemWorld;
           Call_SetLabelFormat None] mapper0 = mapper0).
Proof.
  split.
  - apply (run_MTime [Call_SetLabelModeToLabelIds; Call_SetLabelModeToLabelScalars;
                      Call_SetCoordinateSystem 5] mapper0).
    + apply N.le_refl.
    + vm_compute. discriminate.
  - apply (run_MTime [Call_SetLabelModeToLabelIds; Call_CoordinateSystemWorld;
                      Call_SetLabelFormat None] mapper0).
    + apply N.le_refl.
    + vm_compute. discriminate.
Defined.

(** At the counter's last value the stamp wraps: the call changes the mode
    and leaves a modification time of 0, below the one the object had. *)
Example SetLabelMode_at_ULONG_MAX :
  MTime
    (SetLabelMode 3
       {| Input := NULL; LabelFormat := None; LabelMode := VTK_LABEL_IDS;
          LabeledComponent := -1; FieldDataArray := 0; FieldDataName := None;
          CoordinateSystem := WORLD; BuildTime := 0%N; NumberOfLabels := 0;
          NumberOfLabelsAllocated := 0; TextMappers := NULL;
          LabelPositions := NULL; Transform := NULL; Implementation := NULL;
          MTime := 7%N; TimeStampTime := ULONG_MAX |})
  = 0%N.
Proof. reflexivity. Qed.

(** X6: writing back what the getter returned: SetCoordinateSystem called with
    the result of GetCoordinateSystem leaves the object untouched exactly when
    CoordinateSystem is WORLD or DISPLAY.  On an object whose member is out of
    that range (the member is protected, a subclass may assign it) the call
    changes the member and marks the object modified. *)
Theorem SetCoordinateSystem_write_back : forall this : vtkLabeledDataMapper,
  SetCoordinateSystem (GetCoordinateSystem this) this = this
  <-> CoordinateSystem_valid this.
Proof.
  intro this. split.
  - intro H. rewrite <- H. apply SetCoordinateSystem_valid.
  - intro H. unfold SetCoordinateSystem, GetCoordinateSystem, vtkGetMacro,
      vtkSetClampMacro. cbv zeta. simpl.
    rewrite clamp_max_min.
    replace (Z.max WORLD (Z.min (CoordinateSystem this) DISPLAY))
      with (CoordinateSystem this)
      by (destruct H as [ H | H ]; rewrite H; reflexivity).
    rewrite Z.eqb_refl. reflexivity.
Qed.

Example SetCoordinateSystem_write_back_out_of_range :
  GetCoordinateSystem
    (SetCoordinateSystem (GetCoordinateSystem (assign_CoordinateSystem 7 mapper0))
       (assign_CoordinateSystem 7 mapper0)) = 1
  /\ MTime
       (SetCoordinateSystem (GetCoordinateSystem (assign_CoordinateSystem 7 mapper0))
          (assign_CoordinateSystem 7 mapper0)) = 1%N.
Proof. split; reflexivity. Qed.
